(** * WoodstockVAURMS: billing, KPI aggregation, roles and audit trail

    A shallow embedding of the algorithmic core of the server:

    - [server/models/rate.py]     [RateStructure.calculate_bill]
    - [server/api/analytics.py]   [get_kpis], [get_mock_kpis]
    - [server/models/user.py]     [User.has_permission], [User.to_dict]
    - [server/models/base.py]     [BaseModel.to_dict]
    - [server/models/audit.py]    [Audit.log_action]
    - [server/api/admin.py]       [get_audit_log]

    Python numbers (the JSON numbers of a rate structure, the [Float]
    columns of a bill) are embedded as exact rationals [Qc]; where the
    rounding of IEEE doubles decides a property, module [Doubles] keeps
    the binary64 numbers.  Python dictionaries are
    [gmap]s with string keys, Python sets are [gset]s, and the tables of
    the database are lists of rows in insertion order. *)

From Stdlib Require Import QArith Qcanon Qround Lqa PrimFloat.
From stdpp Require Import base numbers list strings pretty gmap sorting.

Local Open Scope Qc_scope.

(** ** Numbers *)

(** The rational [n / d]. *)
Definition qc (n : Z) (d : positive) : Qc := Q2Qc (n # d).

(** Closed equations and inequations between rationals are decided by
    evaluation. *)
Ltac qc_compute := apply (bool_decide_unpack _); vm_compute; exact I.

(** ** Rate structures ([server/models/rate.py]) *)

Module Rate.

(** The value under ['up_to']: a number, or [float('inf')]. *)
Inductive limit :=
| Finite (q : Qc)
| Infinity.

(** One element of the ['tiers'] list: a dictionary read with
    [tier.get('up_to', float('inf'))] and [tier.get('price', 0)], so
    either key may be absent. *)
Record tier := Tier {
  up_to : option limit;
  price : option Qc
}.

(** The [structure_json] dictionary, read with
    [structure.get('fixed_charge', 0)] and [structure.get('tiers', [])]. *)
Record structure := Structure {
  fixed_charge : option Qc;
  tiers : option (list tier)
}.

(** Python's [min(a, b)] with a finite first argument: [b] is returned
    only when it is strictly smaller. *)
Definition py_min (a : Qc) (b : limit) : Qc :=
  match b with
  | Infinity => a
  | Finite l => if decide (l < a) then l else a
  end.

Definition tier_limit (t : tier) : limit := default Infinity (up_to t).
Definition tier_rate (t : tier) : Qc := default 0 (price t).

(** The [for tier in tiers] loop of [calculate_bill], with its [break]. *)
Fixpoint tier_loop (ts : list tier) (total_charge remaining_consumption : Qc)
  : Qc :=
  match ts with
  | [] => total_charge
  | t :: rest =>
      if decide (remaining_consumption ≤ 0) then total_charge
      else
        let tier_consumption := py_min remaining_consumption (tier_limit t) in
        tier_loop rest
          (total_charge + tier_consumption * tier_rate t)
          (remaining_consumption - tier_consumption)
  end.

(** [RateStructure.calculate_bill]; [None] stands for a [structure_json]
    that is falsy ([None] or the empty dictionary). *)
Definition calculate_bill (structure_json : option structure)
    (consumption : Qc) : Qc :=
  match structure_json with
  | None => 0
  | Some s =>
      tier_loop (default [] (tiers s)) (default 0 (fixed_charge s)) consumption
  end.

(** The quantity each tier is charged by the loop, in list order. *)
Fixpoint tier_quantities (ts : list tier) (remaining : Qc) : list Qc :=
  match ts with
  | [] => []
  | t :: rest =>
      if decide (remaining ≤ 0) then []
      else
        let q := py_min remaining (tier_limit t) in
        q :: tier_quantities rest (remaining - q)
  end.

(** Sum of quantity times price over the tiers that were charged. *)
Fixpoint charges (ts : list tier) (qs : list Qc) : Qc :=
  match ts, qs with
  | t :: ts', q :: qs' => q * tier_rate t + charges ts' qs'
  | _, _ => 0
  end.

(** *** The invariant of the data model

    Thresholds are cumulative consumption levels: the finite ones
    increase strictly from 0, prices are non-negative, and an unbounded
    tier can only be the last one. *)
Fixpoint valid_tiers (prev : Qc) (ts : list tier) : Prop :=
  match ts with
  | [] => True
  | t :: rest =>
      0 ≤ tier_rate t ∧
      match tier_limit t with
      | Infinity => rest = []
      | Finite b => prev < b ∧ valid_tiers b rest
      end
  end.

Definition valid_structure (s : structure) : Prop :=
  0 ≤ default 0 (fixed_charge s) ∧ valid_tiers 0 (default [] (tiers s)).

#[global] Instance valid_tiers_dec prev ts : Decision (valid_tiers prev ts).
Proof.
  revert prev. induction ts as [|t rest IH]; intros prev; simpl.
  - apply _.
  - destruct (tier_limit t); apply _.
Defined.

#[global] Instance valid_structure_dec s : Decision (valid_structure s).
Proof. unfold valid_structure. apply _. Defined.

(** *** The billing rule as the specification words it

    Tier bounds are cumulative thresholds: a tier is charged
    [min(remaining, tier_bound - cumulative_consumed_so_far)]. *)
Definition spec_chargeable (remaining : Qc) (bound : limit) (consumed : Qc)
  : Qc :=
  match bound with
  | Infinity => remaining
  | Finite b => if decide (b - consumed < remaining) then b - consumed
                else remaining
  end.

Fixpoint spec_tier_loop (ts : list tier) (total remaining consumed : Qc)
  : Qc :=
  match ts with
  | [] => total
  | t :: rest =>
      if decide (remaining ≤ 0) then total
      else
        let q := spec_chargeable remaining (tier_limit t) consumed in
        spec_tier_loop rest (total + q * tier_rate t) (remaining - q)
          (consumed + q)
  end.

Definition spec_computeBill (consumption : Qc) (s : structure) : Qc :=
  spec_tier_loop (default [] (tiers s)) (default 0 (fixed_charge s))
    consumption 0.

(** *** Sample structures *)

(** The structure returned by [optimise_rates] in [server/api/rates.py]. *)
Definition optimized_structure : structure :=
  Structure (Some (qc 25 1))
    (Some [ Tier (Some (Finite (qc 5000 1))) (Some (qc 85 10000));
            Tier (Some (Finite (qc 15000 1))) (Some (qc 95 10000));
            Tier (Some Infinity) (Some (qc 105 10000)) ]).

(** One finite tier followed by the unbounded one. *)
Definition two_tier_structure : structure :=
  Structure (Some (qc 25 1))
    (Some [ Tier (Some (Finite (qc 5000 1))) (Some (qc 85 10000));
            Tier None (Some (qc 105 10000)) ]).


Definition misplaced_unbounded_structure : structure :=
  Structure (Some (qc 5 1))
    (Some [ Tier (Some Infinity) (Some (qc 1 1));
            Tier (Some (Finite (qc 4 1))) (Some (qc 2 1)) ]).


End Rate.


(** ** Python values and HTTP responses *)

(** The values a column or a JSON payload can hold. *)
Inductive pyval :=
| PyNone
| PyBool (b : bool)
| PyInt (z : Z)
| PyFloat (q : Qc)
| PyStr (s : string)
| PyDateTime (t : Z).

(** What an endpoint returns: the [jsonify]'d body with status 200, the
    403 answer of an admin-only route, or the 500 answer of the
    [except Exception] handler. *)
Inductive response (A : Type) :=
| Ok200 (body : A)
| Forbidden403
| Error500.
Arguments Ok200 {A} body.
Arguments Forbidden403 {A}.
Arguments Error500 {A}.

(** ** The [query] attribute of a model class ([server/models/base.py])

    The models are built on [Base = declarative_base()] of plain
    SQLAlchemy, while the endpoints read them through [Model.query], an
    attribute that only a class built on Flask-SQLAlchemy's [db.Model]
    has.  On the shipped [Base] the attribute lookup raises
    [AttributeError], which the [except Exception] of an endpoint turns
    into its 500 answer.  [QueryBase] is the base class the endpoints are
    written for. *)
Inductive model_base :=
| DeclarativeBase
| QueryBase.

(** [Base] as [base.py] defines it. *)
Definition Base : model_base := DeclarativeBase.

(** [Model.query] on the table of the model: [None] is the
    [AttributeError]. *)
Definition query (base : model_base) {A : Type} (table : list A)
  : option (list A) :=
  match base with
  | DeclarativeBase => None
  | QueryBase => Some table
  end.

(** ** Users ([server/models/user.py], [server/models/base.py]) *)

Module Users.

(** [class UserRole]. *)
Definition ADMIN : string := "admin".
Definition ANALYST : string := "analyst".
Definition VIEWER : string := "viewer".

(** A row of the [users] table; [role] is the stored string. *)
Record User := mkUser {
  id : nat;
  created_at : Z;
  updated_at : Z;
  email : string;
  password_hash : string;
  role : string;
  first_name : option string;
  last_name : option string;
  is_active : bool
}.

(** The three role strings of [UserRole]. *)
Definition recognized (r : string) : Prop := r ∈ [VIEWER; ANALYST; ADMIN].

(** The dictionary literal of [has_permission]. *)
Definition role_hierarchy : gmap string nat :=
  {[ VIEWER := 1%nat; ANALYST := 2%nat; ADMIN := 3%nat ]}.

(** [role_hierarchy.get(r, 0)]. *)
Definition ordinal (r : string) : nat := default 0%nat (role_hierarchy !! r).

(** [User.has_permission]. *)
Definition has_permission (self : User) (required_role : string) : bool :=
  bool_decide (ordinal required_role ≤ ordinal (role self))%nat.

Definition opt_str (o : option string) : pyval :=
  match o with Some s => PyStr s | None => PyNone end.

(** [self.__table__.columns] for [User]: each column name with its
    [getattr]. *)
Definition columns : list (string * (User → pyval)) :=
  [ ("id", λ u, PyInt (Z.of_nat (id u)));
    ("created_at", λ u, PyDateTime (created_at u));
    ("updated_at", λ u, PyDateTime (updated_at u));
    ("email", λ u, PyStr (email u));
    ("password_hash", λ u, PyStr (password_hash u));
    ("role", λ u, PyStr (role u));
    ("first_name", λ u, opt_str (first_name u));
    ("last_name", λ u, opt_str (last_name u));
    ("is_active", λ u, PyBool (is_active u)) ].

(** [BaseModel.to_dict]: the dictionary comprehension over the columns
    (a later column of the same name would overwrite an earlier one). *)
Definition base_to_dict (self : User) : gmap string pyval :=
  foldl (λ d c, <[c.1 := c.2 self]> d) ∅ columns.

(** [User.to_dict]: [data.pop('password_hash', None)] on the base
    dictionary. *)
Definition to_dict (self : User) : gmap string pyval :=
  delete "password_hash" (base_to_dict self).

(** [set_password] stores a new hash; the hash itself comes from bcrypt. *)
Definition with_password_hash (h : string) (u : User) : User :=
  mkUser (id u) (created_at u) (updated_at u) (email u) h (role u)
    (first_name u) (last_name u) (is_active u).

End Users.

(** ** Bills and datasets ([server/models/bill.py], [server/models/dataset.py]) *)

Module Bills.

Record Bill := mkBill {
  id : nat;
  account_id : string;
  bill_period : string;
  customer_class : string;
  consumption : option Qc;
  amount : Qc;
  paid_flag : bool;
  dataset_id : nat
}.

End Bills.

Module Datasets.

(** [class DatasetStatus]. *)
Definition ACTIVE : string := "active".

Record Dataset := mkDataset {
  id : nat;
  name : string;
  status : string
}.

End Datasets.

(** ** The audit trail ([server/models/audit.py]) *)

Module Audits.

(** A row of the [audit] table. *)
Record Audit := mkAudit {
id : nat;
created_at : Z;
updated_at : Z;
action : string;
resource_type : option string;
resource_id : option string;
description : option string;
payload_json : option (gmap string pyval);
ip_address : option string;
user_agent : option string;
user_id : option nat
}.

(** The [resource_id] argument of [log_action]: absent, a number or a
  string. *)
Inductive resource_key :=
| KeyNone
| KeyInt (z : Z)
| KeyStr (s : string).

(** [str(resource_id) if resource_id else None]: 0 and the empty string
  are falsy. *)
Definition resource_id_column (k : resource_key) : option string :=
match k with
| KeyNone => None
| KeyInt z => if decide (z = 0%Z) then None else Some (pretty z)
| KeyStr s => if decide (s = EmptyString) then None else Some s
end.

(** The primary key the database gives an inserted row: one more than
  the largest key in the table (SQLite's rowid allocation). *)
Definition next_id (table : list Audit) : nat := S (max_list_with id table).

(** [Audit.log_action]: build the row, [db_session.add] and
  [db_session.commit] it.  The session is the [audit] table; [now] is
  the [datetime.utcnow] column default taken at the insert.  The
  result is the committed row and the new table. *)
Definition log_action (db_session : list Audit) (now : Z)
  (action : string) (user_id : option nat) (resource_type : option string)
  (resource_id : resource_key) (description : option string)
  (payload : option (gmap string pyval))
  (ip_address user_agent : option string) : Audit * list Audit :=
let audit_entry :=
  mkAudit (next_id db_session) now now action resource_type
    (resource_id_column resource_id) description payload
    ip_address user_agent user_id in
(audit_entry, db_session ++ [audit_entry]).

(** [order_by(Audit.created_at.desc())]: newest first.  The order of rows
  with equal [created_at] is the engine's. *)
Definition newer_first (a b : Audit) : Prop := (created_at b ≤ created_at a)%Z.

#[global] Instance newer_first_dec a b : Decision (newer_first a b).
Proof. unfold newer_first. apply _. Defined.


End Audits.

(** ** The database *)

Record DB := mkDB {
  users : list Users.User;
  datasets : list Datasets.Dataset;
  bills : list Bills.Bill;
  audit : list Audits.Audit
}.

(** The user row with that primary key: what [User.query.get(user_id)]
    and the [user] relationship of an audit row load. *)
Definition user_query_get (db : DB) (user_id : nat) : option Users.User :=
  List.find (λ u, bool_decide (Users.id u = user_id)) (users db).

(** ** The admin endpoints ([server/api/admin.py]) *)

Module Admin.



(** [entry.user.email if entry.user else 'System']. *)
Definition entry_user_email (db : DB) (entry : Audits.Audit) : string :=
match Audits.user_id entry ≫= user_query_get db with
| Some u => Users.email u
| None => "System"
end.



End Admin.

(** ** The analytics endpoints ([server/api/analytics.py]) *)

Module Analytics.

(** The dictionary of key performance indicators. *)
Record KPIs := mkKPIs {
total_revenue : Qc;
collection_rate : Qc;
customer_count : Z;
coverage_ratio : Qc;
revenue_change : Qc;
collection_change : Qc;
customer_change : Qc;
coverage_change : Qc
}.

(** [get_mock_kpis]. *)
Definition get_mock_kpis : KPIs :=
mkKPIs (qc 2450000 1) (qc 942 10) 12500 (qc 115 100)
  (qc 52 10) (qc 18 10) (qc 21 10) 0.

(** Python's [sum]: start from 0 and add from the left. *)
Definition py_sum (l : list Qc) : Qc := foldl Qcplus 0 l.

(** Python's [/]: a zero divisor raises [ZeroDivisionError] ([None]). *)
Definition py_div (x y : Qc) : option Qc :=
if decide (y = 0) then None else Some (x / y).

(** Rounding to the nearest integer, halves to the even neighbour. *)
Definition round_half_even (q : Q) : Z :=
let f := Qfloor q in
match Qcompare (q - inject_Z f) (1 # 2) with
| Lt => f
| Gt => (f + 1)%Z
| Eq => if Z.even f then f else (f + 1)%Z
end.

(** Python's [round(x, 1)], on the exact rational: the code rounds the
    double nearest to it, which on a tie of the rational can fall on the
    other side. *)
Definition py_round1 (x : Qc) : Qc :=
Qc_of_Z (round_half_even (x * qc 10 1)) / qc 10 1.

Definition sum_amounts (bs : list Bills.Bill) : Qc :=
py_sum (Bills.amount <$> bs).

(** [(total_paid / total_revenue * 100) if total_revenue > 0 else 0]. *)
Definition collection_rate_of (total_paid total_revenue : Qc) : option Qc :=
if decide (0 < total_revenue) then
  r ← py_div total_paid total_revenue; Some (r * qc 100 1)
else Some 0.

(** The collection rate [get_kpis] computes from the bills of the active
  data set, before it is rounded for the answer. *)
Definition bills_collection_rate (bs : list Bills.Bill) : option Qc :=
collection_rate_of (sum_amounts (filter (λ b, Bills.paid_flag b = true) bs))
  (sum_amounts bs).

(** [len(set(bill.account_id for bill in bills))]. *)
Definition bills_customer_count (bs : list Bills.Bill) : Z :=
Z.of_nat (size (list_to_set (Bills.account_id <$> bs) : gset string)).

(** The body of [get_kpis] once the bills are fetched: the mock
  indicators when there is none, the computed ones otherwise; an
  exception becomes the 500 answer. *)
Definition kpis_of_bills (bs : list Bills.Bill) : response KPIs :=
match bs with
| [] => Ok200 get_mock_kpis
| _ =>
    match bills_collection_rate bs with
    | None => Error500
    | Some rate =>
        Ok200 (mkKPIs (sum_amounts bs) (py_round1 rate)
                 (bills_customer_count bs) (qc 115 100)
                 (qc 52 10) (qc 18 10) (qc 21 10) 0)
    end
end.

(** [get_kpis]: the indicators of the first active data set;
    [Dataset.query] and [Bill.query] go through the [query] attribute, and
    an [AttributeError] there is answered with the 500 of the handler. *)
Definition get_kpis (base : model_base) (db : DB) : response KPIs :=
  match query base (datasets db) with
  | None => Error500
  | Some all_datasets =>
      match List.find
              (λ d, bool_decide (Datasets.status d = Datasets.ACTIVE))
              all_datasets with
      | None => Ok200 get_mock_kpis
      | Some active_dataset =>
          match query base (bills db) with
          | None => Error500
          | Some all_bills =>
              kpis_of_bills
                (filter (λ b, Bills.dataset_id b = Datasets.id active_dataset)
                   all_bills)
          end
      end
  end.

End Analytics.

(** ** Sample data *)

Module Samples.

Definition admin_user : Users.User :=
  Users.mkUser 1 1000 1000 "admin@woodstockva.gov" "$2b$12$adminhash"
    Users.ADMIN (Some "Ada") None true.

Definition viewer_user : Users.User :=
  Users.mkUser 2 1001 1001 "viewer@woodstockva.gov" "$2b$12$viewerhash"
    Users.VIEWER None None true.

(** A user object whose [role] is none of the three role strings. *)
Definition guest_user : Users.User :=
  Users.mkUser 3 1002 1002 "guest@woodstockva.gov" "$2b$12$guesthash"
    "guest" None None true.

(** A payload that carries the password typed at a login attempt. *)
Definition secret_payload : gmap string pyval :=
  {[ "password" := PyStr "hunter2"; "attempt" := PyInt 1 ]}.

(** The audit table after a login and a logout within the same clock
    tick. *)
Definition login_logout_audit : list Audits.Audit :=
  let t1 :=
    (Audits.log_action [] 5000 "login" (Some 1%nat) None Audits.KeyNone
       (Some "User admin@woodstockva.gov logged in") None
       (Some "10.0.0.7") (Some "curl")).2 in
  (Audits.log_action t1 5000 "logout" (Some 1%nat) None Audits.KeyNone
     (Some "User admin@woodstockva.gov logged out") None
     (Some "10.0.0.7") (Some "curl")).2.

Definition audited_db : DB :=
  mkDB [admin_user; viewer_user] [] [] login_logout_audit.

(** The two bills of the specification's scenario, and a third one of
    the first account. *)
Definition bill_paid : Bills.Bill :=
  Bills.mkBill 1 "ACC-001" "2024-01" "residential" (Some (qc 4000 1))
    (qc 100 1) true 1.

Definition bill_unpaid : Bills.Bill :=
  Bills.mkBill 2 "ACC-002" "2024-01" "commercial" None (qc 200 1) false 1.


Definition baseline : Datasets.Dataset :=
  Datasets.mkDataset 1 "baseline" Datasets.ACTIVE.

(** An active data set that has no bill yet. *)
Definition unbilled_db : DB := mkDB [admin_user] [baseline] [] [].

End Samples.

(** ** Methods of [Bill] ([server/models/bill.py]) *)

Module BillModel.


(** [Bill.get_payment_rate]: 1.0 for a paid bill, 0.0 otherwise. *)
Definition get_payment_rate (self : Bills.Bill) : Qc :=
  if Bills.paid_flag self then 1 else 0.

End BillModel.

(** ** Answers with other status codes *)

(** [Answer] is a [jsonify]'d body with its status, [Refusal] an
    [{'error': ...}] body with its status, and [Crash500] the 500 answer
    of an [except Exception] handler that reports [str(e)]. *)
Inductive answer (A : Type) :=
| Answer (status : nat) (body : A)
| Refusal (status : nat) (error : string)
| Crash500.
Arguments Answer {A} status body.
Arguments Refusal {A} status error.
Arguments Crash500 {A}.

(** Python's [not x] for an optional string: absent and empty are falsy. *)
Definition py_not (o : option string) : bool :=
  match o with
  | Some s => bool_decide (s = EmptyString)
  | None => true
  end.

(** ** Summary of an audit row ([server/models/audit.py]) *)

Module AuditModel.

(** The dictionary of [Audit.get_summary]; [timestamp] stands for
    [created_at.isoformat()]. *)
Record summary := mkSummary {
  action : string;
  resource : option string;
  user_email : string;
  timestamp : Z;
  description : option string
}.

(** [Audit.get_summary]. *)
Definition get_summary (db : DB) (self : Audits.Audit) : summary :=
  mkSummary (Audits.action self)
    (match Audits.resource_type self, Audits.resource_id self with
     | Some ty, Some rid =>
         if py_not (Some ty) || py_not (Some rid) then None
         else Some (ty +:+ ":" +:+ rid)
     | _, _ => None
     end)
    (Admin.entry_user_email db self)
    (Audits.created_at self)
    (Audits.description self).

End AuditModel.

(** ** The data set endpoints ([server/api/datasets.py]) *)

Module DatasetsApi.

(** [DatasetStatus.VALIDATED]. *)
Definition VALIDATED : string := "validated".

(** Assignment to the [status] column.  Of a data set the model keeps the
    id, the name and the status; the other columns, [updated_at] among
    them, are not tracked. *)
Definition set_status (s : string) (d : Datasets.Dataset) : Datasets.Dataset :=
  Datasets.mkDataset (Datasets.id d) (Datasets.name d) s.

(** [Dataset.query.get_or_404(dataset_id)]; [None] is the [NotFound]
    exception it raises. *)
Definition get_or_404 (db : DB) (dataset_id : nat) : option Datasets.Dataset :=
  List.find (λ d, bool_decide (Datasets.id d = dataset_id)) (datasets db).

(** [Dataset.query.filter_by(status=ACTIVE).update({'status': VALIDATED})]. *)
Definition deactivate_all (ds : list Datasets.Dataset) : list Datasets.Dataset :=
  (λ d, if bool_decide (Datasets.status d = Datasets.ACTIVE)
        then set_status VALIDATED d else d) <$> ds.

(** [dataset.status = DatasetStatus.ACTIVE] on the row with that primary
    key. *)
Definition activate (dataset_id : nat) (ds : list Datasets.Dataset)
  : list Datasets.Dataset :=
  (λ d, if bool_decide (Datasets.id d = dataset_id)
        then set_status Datasets.ACTIVE d else d) <$> ds.

(** What the two updates together do to one row. *)
Definition reactivate (i : nat) (d : Datasets.Dataset) : Datasets.Dataset :=
  if bool_decide (Datasets.id d = i) then set_status Datasets.ACTIVE d
  else if bool_decide (Datasets.status d = Datasets.ACTIVE)
       then set_status VALIDATED d else d.

Definition with_datasets (db : DB) (ds : list Datasets.Dataset) : DB :=
  mkDB (users db) ds (bills db) (audit db).

(** The body of the 200 answer. *)
Record commit_body := mkCommitBody {
  message : string;
  dataset_id : nat
}.

(** [commit_dataset]: [Dataset.query] goes through the [query]
    attribute; its [AttributeError], like the [NotFound] that
    [get_or_404] raises for a missing data set, is caught by the
    [except Exception] handler, which rolls back and answers 500. *)
Definition commit_dataset (base : model_base) (db : DB) (dataset_id : nat)
  : answer commit_body * DB :=
  match query base (datasets db) with
  | None => (Crash500, db)
  | Some _ =>
      match get_or_404 db dataset_id with
      | None => (Crash500, db)
      | Some dataset =>
          (Answer 200 (mkCommitBody "Dataset activated successfully"
                         (Datasets.id dataset)),
           with_datasets db
             (activate dataset_id (deactivate_all (datasets db))))
      end
  end.

End DatasetsApi.

(** ** Passwords, the user endpoints and the session endpoints
       ([server/models/user.py], [server/api/users.py],
       [server/api/auth.py]) *)

Module Accounts.

(** [AuditAction.LOGIN]. *)
Definition LOGIN : string := "login".
(** The JSON body of a [create_user] request. *)
Record user_form := mkForm {
  form_email : option string;
  form_password : option string;
  form_role : option string;
  form_first_name : option string;
  form_last_name : option string
}.

(** The JSON body of a [login] request. *)
Record credentials := mkCredentials {
  cred_email : option string;
  cred_password : option string
}.

(** The ['user'] dictionary of the login answer. *)
Record user_json := mkUserJson {
  id : nat;
  email : string;
  role : string;
  first_name : option string;
  last_name : option string
}.

Record login_body := mkLoginBody {
  token : string;
  refresh_token : string;
  user : user_json
}.

Definition with_users (db : DB) (us : list Users.User) : DB :=
  mkDB us (datasets db) (bills db) (audit db).

Definition with_audit (db : DB) (table : list Audits.Audit) : DB :=
  mkDB (users db) (datasets db) (bills db) table.

(** The primary key of an inserted user, as for the audit table. *)
Definition next_user_id (table : list Users.User) : nat :=
  S (max_list_with Users.id table).

(** The check of the admin-only endpoints:
    [current_user and current_user.role == UserRole.ADMIN]. *)
Definition is_admin (db : DB) (uid : nat) : Prop :=
  ∃ u, user_query_get db uid = Some u ∧ Users.role u = Users.ADMIN.


Section external.

(** [bcrypt.hashpw(password, salt)], [bcrypt.checkpw(password, hash)]
    ([None] when it raises on a malformed hash) and the two token
    constructors of [flask_jwt_extended]. *)
Variable hashpw : string → string → string.
Variable checkpw : string → string → option bool.
Variable create_access_token : nat → string.
Variable create_refresh_token : nat → string.

(** [User.set_password], with the salt [bcrypt.gensalt()] drew. *)
Definition set_password (salt password : string) (self : Users.User)
  : Users.User :=
  Users.with_password_hash (hashpw password salt) self.

(** [User.check_password]. *)
Definition check_password (self : Users.User) (password : string)
  : option bool :=
  checkpw password (Users.password_hash self).

(** The row [create_user] commits for a request with that e-mail and
    password. *)
Definition requested_user (db : DB) (now : Z) (salt : string)
    (data : user_form) (email password : string) : Users.User :=
  Users.mkUser (next_user_id (users db)) now now email
    (hashpw password salt) (default Users.VIEWER (form_role data))
    (form_first_name data) (form_last_name data) true.

(** [create_user]: [now] is the clock at the insert and [salt] the salt
    drawn for the password.  [User.query] goes through the [query]
    attribute.  The [role] column is an [Enum]: the commit stores any
    string, but [new_user.to_dict()] reads the committed row back, and
    reading a role that is none of the three raises [LookupError]; the
    handler then answers 500, with the row already committed. *)
Definition create_user (base : model_base) (db : DB) (now : Z)
    (salt : string) (current_user_id : nat) (data : user_form)
  : answer (gmap string pyval) * DB :=
  match query base (users db) with
  | None => (Crash500, db)
  | Some _ =>
      match user_query_get db current_user_id with
      | None => (Refusal 403 "Admin access required", db)
      | Some current_user =>
          if bool_decide (Users.role current_user ≠ Users.ADMIN)
          then (Refusal 403 "Admin access required", db)
          else if py_not (form_email data) || py_not (form_password data)
          then (Refusal 400 "Email and password are required", db)
          else
            let email := default EmptyString (form_email data) in
            let password := default EmptyString (form_password data) in
            match List.find (λ u, bool_decide (Users.email u = email))
                    (users db) with
            | Some existing_user =>
                (Refusal 400 "User with this email already exists", db)
            | None =>
                let new_user :=
                  set_password salt password
                    (Users.mkUser (next_user_id (users db)) now now email
                       EmptyString (default Users.VIEWER (form_role data))
                       (form_first_name data) (form_last_name data) true) in
                let committed := with_users db (users db ++ [new_user]) in
                if bool_decide (Users.recognized (Users.role new_user))
                then (Answer 201 (Users.to_dict new_user), committed)
                else (Crash500, committed)
            end
      end
  end.

(** [User.query.filter_by(email=email, is_active=True).first()]. *)
Definition active_user_by_email (db : DB) (email : string)
  : option Users.User :=
  List.find (λ u, bool_decide (Users.email u = email) && Users.is_active u)
    (users db).

(** [login]; [User.query] goes through the [query] attribute, after the
    check of the two fields. *)
Definition login (base : model_base) (db : DB) (now : Z) (data : credentials)
    (remote_addr user_agent : option string) : answer login_body * DB :=
  if py_not (cred_email data) || py_not (cred_password data)
  then (Refusal 400 "Email and password are required", db)
  else
    let email := default EmptyString (cred_email data) in
    let password := default EmptyString (cred_password data) in
    match query base (users db) with
    | None => (Refusal 500 "Login failed", db)
    | Some _ =>
        match active_user_by_email db email with
        | None => (Refusal 401 "Invalid email or password", db)
        | Some user =>
            match check_password user password with
            | None => (Refusal 500 "Login failed", db)
            | Some false => (Refusal 401 "Invalid email or password", db)
            | Some true =>
                let access_token := create_access_token (Users.id user) in
                let refresh_token := create_refresh_token (Users.id user) in
                let logged :=
                  Audits.log_action (audit db) now LOGIN
                    (Some (Users.id user)) None Audits.KeyNone
                    (Some ("User " +:+ Users.email user +:+ " logged in"))
                    None remote_addr user_agent in
                (Answer 200
                   (mkLoginBody access_token refresh_token
                      (mkUserJson (Users.id user) (Users.email user)
                         (Users.role user) (Users.first_name user)
                         (Users.last_name user))),
                 with_audit db logged.2)
            end
        end
    end.

End external.

End Accounts.

(** ** Forecasts and assumptions ([server/models/forecast.py]) *)

Module Forecasts.

(** One element of [results_json]: a dictionary read with
    [r.get(key, 0)]. *)
Record year_result := mkYear {
  revenue : option Qc;
  opex : option Qc;
  capex : option Qc;
  ending_fund : option Qc
}.

Record results_summary := mkResultsSummary {
  total_revenue : Qc;
  total_opex : Qc;
  total_capex : Qc;
  ending_fund_balance : Qc;
  years_forecasted : nat
}.

Definition total_of (key : year_result → option Qc)
    (results : list year_result) : Qc :=
  Analytics.py_sum ((λ r, default 0 (key r)) <$> results).

(** [Forecast.get_results_summary]: [None] for a falsy [results_json]
    ([None] or the empty list). *)
Definition get_results_summary (results_json : option (list year_result))
  : option results_summary :=
  match results_json with
  | None | Some [] => None
  | Some results =>
      Some (mkResultsSummary
              (total_of revenue results) (total_of opex results)
              (total_of capex results)
              (match last results with
               | Some r => default 0 (ending_fund r)
               | None => 0
               end)
              (length results))
  end.

(** What a method call gives: a value, or the [AttributeError] of a
    method called on [None]. *)
Inductive outcome (A : Type) :=
| Returned (a : A)
| AttributeError.
Arguments Returned {A} a.
Arguments AttributeError {A}.

(** [Assumption.get_parameter] on the [parameters_json] of the row. *)
Definition get_parameter (parameters_json : option (gmap string pyval))
    (key : string) (default_value : pyval) : outcome pyval :=
  match parameters_json with
  | None => AttributeError
  | Some m => Returned (default default_value (m !! key))
  end.

(** [Assumption.set_parameter]: the new [parameters_json]. *)
Definition set_parameter (parameters_json : option (gmap string pyval))
    (key : string) (value : pyval) : option (gmap string pyval) :=
  Some (<[key := value]> (default ∅ parameters_json)).

End Forecasts.

(** ** [calculate_bill] on the values a JSON structure can hold

    [structure_json] is free-form JSON: under ['up_to'] and ['price'] a
    tier can hold a number, a boolean (a number to Python), or something
    else (null, a string such as "unbounded", a list, an object), on
    which [min] and the arithmetic of the loop raise [TypeError].  The
    fixed charge and the consumption are numbers. *)

Module RateJson.

Inductive up_to_value :=
| UpToNumber (q : Qc)
| UpToInfinity
| UpToBool (b : bool)
| UpToOther.

Inductive price_value :=
| PriceNumber (q : Qc)
| PriceBool (b : bool)
| PriceOther.

Record tier := Tier {
  up_to : option up_to_value;
  price : option price_value
}.

Record structure := Structure {
  fixed_charge : option Qc;
  tiers : option (list tier)
}.

(** The exceptions of Python met in this development. *)
Inductive exception :=
| TypeError
| AttributeError
| ZeroDivisionError
| LookupError.

Inductive outcome (A : Type) :=
| Returned (a : A)
| Raised (e : exception).
Arguments Returned {A} a.
Arguments Raised {A} e.

#[global] Instance exception_eq_dec : EqDecision exception.
Proof. solve_decision. Defined.

#[global] Instance outcome_eq_dec : EqDecision (outcome Qc).
Proof. solve_decision. Defined.

Definition number_of_bool (b : bool) : Qc := if b then 1 else 0.

(** The operand [min] compares with; [None] when the comparison raises. *)
Definition limit_of (v : up_to_value) : option Rate.limit :=
  match v with
  | UpToNumber q => Some (Rate.Finite q)
  | UpToInfinity => Some Rate.Infinity
  | UpToBool b => Some (Rate.Finite (number_of_bool b))
  | UpToOther => None
  end.

(** The factor of the multiplication; [None] when it raises. *)
Definition rate_of (v : price_value) : option Qc :=
  match v with
  | PriceNumber q => Some q
  | PriceBool b => Some (number_of_bool b)
  | PriceOther => None
  end.

(** The loop of [calculate_bill]: the two [get]s, the test of the
    [break], then [min], the multiplication and the subtraction. *)
Fixpoint tier_loop (ts : list tier) (total_charge remaining_consumption : Qc)
  : outcome Qc :=
  match ts with
  | [] => Returned total_charge
  | t :: rest =>
      let tier_limit := default UpToInfinity (up_to t) in
      let tier_rate := default (PriceNumber 0) (price t) in
      if decide (remaining_consumption ≤ 0) then Returned total_charge
      else
        match limit_of tier_limit with
        | None => Raised TypeError
        | Some limit =>
            let tier_consumption := Rate.py_min remaining_consumption limit in
            match rate_of tier_rate with
            | None => Raised TypeError
            | Some rate =>
                tier_loop rest (total_charge + tier_consumption * rate)
                  (remaining_consumption - tier_consumption)
            end
        end
  end.

(** [RateStructure.calculate_bill]. *)
Definition calculate_bill (structure_json : option structure)
    (consumption : Qc) : outcome Qc :=
  match structure_json with
  | None => Returned 0
  | Some s =>
      tier_loop (default [] (tiers s)) (default 0 (fixed_charge s)) consumption
  end.






(** The shape of the specification: the last bound is the string
    "unbounded". *)
Definition unbounded_string_json : structure :=
  Structure (Some (qc 25 1))
    (Some [ Tier (Some (UpToNumber (qc 5000 1)))
              (Some (PriceNumber (qc 85 10000)));
            Tier (Some UpToOther) (Some (PriceNumber (qc 105 10000))) ]).

End RateJson.

(** ** The sums of [get_kpis] over doubles

    The [amount] column is a [Float]: the sums of [get_kpis] are sums of
    IEEE binary64 numbers, added from the left.  This module keeps the
    doubles; the rest of the development takes the amounts as exact
    rationals. *)

Module Doubles.

Record Bill := mkBill {
  account_id : string;
  amount : float;
  paid_flag : bool
}.

(** Python's [sum] over floats: start from 0 and add from the left. *)
Definition py_sum (l : list float) : float := foldl PrimFloat.add 0%float l.

(** [sum(bill.amount for bill in bills)]. *)
Definition total_revenue (bs : list Bill) : float := py_sum (amount <$> bs).

(** [sum(bill.amount for bill in bills if bill.paid_flag)]. *)
Definition total_paid (bs : list Bill) : float :=
  py_sum (amount <$> filter (λ b, paid_flag b = true) bs).

(** [len(set(bill.account_id for bill in bills))]. *)
Definition customer_count (bs : list Bill) : Z :=
  Z.of_nat (size (list_to_set (account_id <$> bs) : gset string)).


End Doubles.

(** ** Further sample data *)

Module Fixtures.

(** A second data set, validated but not active, with one bill. *)
Definition fy2025 : Datasets.Dataset :=
  Datasets.mkDataset 2 "fy2025.csv" DatasetsApi.VALIDATED.

Definition bill_fy2025 : Bills.Bill :=
  Bills.mkBill 4 "ACC-003" "2025-01" "industrial" None (qc 700 1) true 2.

Definition two_datasets_db : DB :=
  mkDB [Samples.admin_user; Samples.viewer_user] [Samples.baseline; fy2025]
    [Samples.bill_paid; Samples.bill_unpaid; bill_fy2025] [].

(** A stand-in for bcrypt: the hash is the salt followed by the
    password. *)
Definition toy_hashpw (password salt : string) : string := salt +:+ password.

(** Two years of forecast results, the second without expenses, and
    the summary of each year on its own. *)
Definition year_2024 : Forecasts.year_result :=
  Forecasts.mkYear (Some (qc 2500000 1)) (Some (qc 1800000 1))
    (Some (qc 500000 1)) (Some (qc 200000 1)).

Definition year_2025 : Forecasts.year_result :=
  Forecasts.mkYear (Some (qc 2625000 1)) None None (Some (qc 210000 1)).

Definition summary_2024 : Forecasts.results_summary :=
  Forecasts.mkResultsSummary (qc 2500000 1) (qc 1800000 1) (qc 500000 1)
    (qc 200000 1) 1.

Definition summary_2025 : Forecasts.results_summary :=
  Forecasts.mkResultsSummary (qc 2625000 1) 0 0 (qc 210000 1) 1.




Definition new_analyst : Accounts.user_form :=
  Accounts.mkForm (Some "analyst@woodstockva.gov") (Some "s3cret")
    (Some Users.ANALYST) (Some "Ann") None.

End Fixtures.

(** * Properties *)

(** ** Arithmetic on [Qc] *)

Lemma Qcle_plus_nonneg (x y : Qc) : 0 ≤ y → x ≤ x + y.
Proof.
  intros Hy. rewrite <-(Qcplus_0_r x) at 1. by apply Qcplus_le_mono_l.
Qed.

Lemma Qclt_le_incl (x y : Qc) : x < y → x ≤ y.
Proof. apply Qclt_le_weak. Qed.

(** ** The rate calculator *)

Section rate.
Import Rate.

Lemma py_min_le a b : py_min a b ≤ a.
Proof.
  destruct b as [l|]; simpl; [|done].
  case_decide; [by apply Qclt_le_incl|done].
Qed.

Lemma py_min_nonneg a b prev :
  0 < a → 0 ≤ prev →
  match b with Finite l => prev < l | Infinity => True end →
  0 ≤ py_min a b.
Proof.
  intros Ha Hprev Hb. destruct b as [l|]; simpl.
  - case_decide; apply Qclt_le_incl; [|done].
    by apply Qcle_lt_trans with prev.
  - by apply Qclt_le_incl.
Qed.

(** The loop adds to the running total the charge of each tier it
    reaches. *)
Lemma tier_loop_charges ts total remaining :
  tier_loop ts total remaining
  = total + charges ts (tier_quantities ts remaining).
Proof.
  revert total remaining.
  induction ts as [|t rest IH]; intros total remaining; simpl.
  - ring.
  - case_decide; simpl; [ring|]. rewrite IH. ring.
Qed.

(** No consumption left: the loop leaves the total as it is. *)
Lemma tier_loop_exhausted ts total remaining :
  remaining ≤ 0 → tier_loop ts total remaining = total.
Proof. intros Hr. destruct ts; simpl; [done|]. by rewrite decide_True. Qed.

(** On a valid tier list the total never decreases. *)
Lemma tier_loop_ge ts prev total remaining :
  0 ≤ prev → valid_tiers prev ts → total ≤ tier_loop ts total remaining.
Proof.
  revert prev total remaining.
  induction ts as [|t rest IH]; intros prev total remaining Hprev Hv; simpl.
  - done.
  - destruct Hv as [Hrate Hlim]. case_decide as Hrem; [done|].
    apply Qcnot_le_lt in Hrem.
    assert (0 ≤ py_min remaining (tier_limit t)) as Hq.
    { apply py_min_nonneg with prev; [done..|].
      destruct (tier_limit t); [by destruct Hlim|done]. }
    trans (total + py_min remaining (tier_limit t) * tier_rate t).
    { apply Qcle_plus_nonneg. by apply Qcmult_nonneg_nonneg. }
    destruct (tier_limit t) as [b|] eqn:Hb.
    + destruct Hlim as [Hlt Hrest].
      apply IH with b; [|done].
      apply Qclt_le_incl. by apply Qcle_lt_trans with prev.
    + subst rest. done.
Qed.

End rate.

Section rate_claims.
Import Rate.

(** The scenario of the specification: one finite tier, then the
    unbounded one; 8000 units cost 25 + 42.5 + 31.5. *)
Example calculate_bill_two_tiers_8000 :
  calculate_bill (Some two_tier_structure) (qc 8000 1) = qc 99 1.
Proof. qc_compute. Qed.

(** With a single finite tier before the unbounded one nothing has been
    consumed when the finite tier is charged, and the loop bills what the
    cumulative rule bills. *)
Lemma calculate_bill_one_finite_tier b p1 p2 fixed c :
  calculate_bill (Some (Structure fixed (Some [Tier (Some (Finite b)) p1;
                                               Tier None p2]))) c
  = spec_computeBill c (Structure fixed (Some [Tier (Some (Finite b)) p1;
                                               Tier None p2])).
Proof.
  unfold calculate_bill, spec_computeBill. simpl.
  case_decide; [done|]. unfold tier_limit. simpl.
  replace (b - 0) with b by ring. by case_decide.
Qed.

(** C1 (fails on the code).  The claim charges each tier
    [min(remaining, tier_bound - cumulative_consumed_so_far)], reading
    ['up_to'] as a cumulative threshold.  [calculate_bill] charges
    [min(remaining, up_to)]: on the valid structure of
    [server/api/rates.py] (thresholds 5000, 15000, unbounded) and a
    consumption of 20000 it bills 15000 units in the second tier and none
    in the third, 210 in all, where the claimed rule bills 10000 and 5000
    units, 215 in all. *)
Theorem calculate_bill_ignores_consumed_so_far :
  valid_structure optimized_structure ∧
  calculate_bill (Some optimized_structure) (qc 20000 1) = qc 210 1 ∧
  tier_quantities (default [] (tiers optimized_structure)) (qc 20000 1)
    = [qc 5000 1; qc 15000 1] ∧
  spec_computeBill (qc 20000 1) optimized_structure = qc 215 1.
Proof.
  split; [by apply (bool_decide_unpack _); vm_compute|].
  split; [qc_compute|]. split; [|qc_compute].
  apply (bool_decide_unpack _). by vm_compute.
Qed.




(** The JSON shape of the specification, with the string "unbounded" as
    last bound, is billed as long as the first tier takes all the
    consumption, and raises [TypeError] as soon as the loop reaches the
    string. *)
Example calculate_bill_unbounded_string :
  RateJson.calculate_bill (Some RateJson.unbounded_string_json) (qc 3000 1)
  = RateJson.Returned (qc 505 10) ∧
  RateJson.calculate_bill (Some RateJson.unbounded_string_json) (qc 8000 1)
  = RateJson.Raised RateJson.TypeError.
Proof.
  split; apply (bool_decide_unpack _); vm_compute; exact I.
Qed.



(** C8.  For a valid structure and a non-negative consumption the bill is
    at least the fixed charge, and the bill of a consumption of 0 is the
    fixed charge. *)
Theorem calculate_bill_at_least_fixed_charge s c :
  valid_structure s → 0 ≤ c →
  default 0 (fixed_charge s) ≤ calculate_bill (Some s) c ∧
  calculate_bill (Some s) 0 = default 0 (fixed_charge s).
Proof.
  intros [_ Hts] _. unfold calculate_bill. split.
  - by apply tier_loop_ge with 0.
  - by apply tier_loop_exhausted.
Qed.

Lemma calculate_bill_at_least_fixed_charge_witness :
  default 0 (fixed_charge optimized_structure)
    ≤ calculate_bill (Some optimized_structure) (qc 20000 1) ∧
  calculate_bill (Some optimized_structure) 0
    = default 0 (fixed_charge optimized_structure).
Proof.
  apply calculate_bill_at_least_fixed_charge.
  - apply (bool_decide_unpack _). vm_compute. exact I.
  - apply (bool_decide_unpack _). vm_compute. exact I.
Defined.

End rate_claims.

(** ** Roles and serialisation of users *)

Section users_claims.
Import Users.

Lemma ordinal_unrecognized r : ¬ recognized r → ordinal r = 0%nat.
Proof.
  unfold recognized, ordinal, role_hierarchy. intros Hr.
  rewrite !lookup_insert_ne, lookup_singleton_ne; [done|..];
    intros <-; apply Hr; set_solver.
Qed.

Lemma ordinal_recognized r : recognized r → (1 ≤ ordinal r)%nat.
Proof.
  unfold recognized. rewrite !elem_of_cons, elem_of_nil.
  intros [->|[->|[->|[]]]]; vm_compute; lia.
Qed.

(** The examples of the specification. *)
Example has_permission_examples :
  has_permission Samples.admin_user VIEWER = true ∧
  has_permission Samples.viewer_user ADMIN = false ∧
  has_permission (mkUser 4 0 0 "a@b" "h" ANALYST None None true) ANALYST = true.
Proof. by vm_compute. Qed.

(** C4 (counterexample).  A principal with an unrecognized role is
    authorized when the required role is unrecognized as well: both
    ordinals are 0. *)
Lemma has_permission_unrecognized_required :
  ¬ recognized (role Samples.guest_user) ∧
  has_permission Samples.guest_user "superuser" = true.
Proof.
  split; [|by vm_compute].
  apply (bool_decide_unpack _). by vm_compute.
Qed.

(** C4 (amended).  [has_permission] maps viewer to 1, analyst to 2 and
    admin to 3 and answers true iff the ordinal of the principal's role is
    at least that of the required role; a principal whose role is
    unrecognized has ordinal 0 and is refused every recognized required
    role. *)
Theorem has_permission_ordinals (self : User) (required_role : string) :
  ordinal VIEWER = 1%nat ∧ ordinal ANALYST = 2%nat ∧ ordinal ADMIN = 3%nat ∧
  (has_permission self required_role = true
   ↔ (ordinal required_role ≤ ordinal (role self))%nat) ∧
  (¬ recognized (role self) →
   ordinal (role self) = 0%nat ∧
   (recognized required_role → has_permission self required_role = false)).
Proof.
  split; [by vm_compute|]. split; [by vm_compute|]. split; [by vm_compute|].
  split.
  - unfold has_permission. apply bool_decide_eq_true.
  - intros Hself. pose proof (ordinal_unrecognized _ Hself) as H0.
    split; [done|]. intros Hreq%ordinal_recognized.
    unfold has_permission. apply bool_decide_eq_false. lia.
Qed.

Lemma has_permission_ordinals_witness :
  ¬ recognized (role Samples.guest_user) ∧ recognized ADMIN ∧
  ordinal (role Samples.guest_user) = 0%nat ∧
  has_permission Samples.guest_user ADMIN = false.
Proof.
  assert (¬ recognized (role Samples.guest_user)) as Hg.
  { apply (bool_decide_unpack _). vm_compute. exact I. }
  assert (recognized ADMIN) as Ha.
  { apply (bool_decide_unpack _). vm_compute. exact I. }
  destruct (has_permission_ordinals Samples.guest_user ADMIN)
    as (_ & _ & _ & _ & H).
  destruct (H Hg) as [H0 Hno].
  exact (conj Hg (conj Ha (conj H0 (Hno Ha)))).
Defined.

(** C10.  The dictionary [User.to_dict] returns has no ['password_hash']
    key, and it is the same dictionary whatever hash is stored: it depends
    on the other columns only. *)
Theorem to_dict_hides_password_hash (u : User) :
  to_dict u !! "password_hash" = None ∧
  (∀ h, to_dict (with_password_hash h u) = to_dict u) ∧
  dom (to_dict u)
  = list_to_set
      (filter (λ k, k ≠ "password_hash") (columns.*1)).
Proof.
  split; [apply lookup_delete_eq|]. split.
  - intros h. unfold to_dict, base_to_dict. simpl.
    rewrite !(delete_insert_ne _ "password_hash") by done.
    by rewrite !delete_insert_eq.
  - unfold to_dict, base_to_dict. simpl.
    rewrite dom_delete_L, !dom_insert_L, dom_empty_L.
    apply set_eq. intros k. set_solver.
Qed.

End users_claims.

(** ** The audit trail *)

Section audit_claims.
Import Audits.

Lemma max_list_with_elem_le {A} (f : A → nat) (x : A) (l : list A) :
  x ∈ l → (f x ≤ max_list_with f l)%nat.
Proof. induction 1; simpl; lia. Qed.

(** A key handed out by [next_id] is larger than every key in the table. *)
Lemma next_id_fresh table e : e ∈ table → (id e < next_id table)%nat.
Proof.
  intros He%(max_list_with_elem_le id). unfold next_id. lia.
Qed.

#[local] Instance newer_first_total : Total newer_first.
Proof. intros a b. unfold newer_first. lia. Qed.

#[local] Instance newer_first_trans : Transitive newer_first.
Proof. intros a b c. unfold newer_first. lia. Qed.



(** C5 (counterexample).  A payload with a ['password'] key is committed
    as it is: the row of the audit table carries the password. *)
Lemma log_action_persists_password :
  let '(entry, table) :=
    log_action [] 5000 "login" None None KeyNone None
      (Some Samples.secret_payload) None None in
  Samples.secret_payload !! "password" = Some (PyStr "hunter2") ∧
  last table = Some entry ∧
  payload_json entry ≫= (.!! "password") = Some (PyStr "hunter2").
Proof. by vm_compute. Qed.

(** C5 (amended).  [log_action] commits the caller's payload verbatim: the
    row it appends to the audit table has the payload it was given, so
    every key of the payload, sensitive or not, is in the record. *)
Theorem log_action_stores_payload_verbatim
    db_session now action user_id resource_type resource_id description
    payload ip_address user_agent :
  let '(entry, table) :=
    log_action db_session now action user_id resource_type resource_id
      description payload ip_address user_agent in
  table = db_session ++ [entry] ∧
  payload_json entry = payload ∧
  ∀ k, payload_json entry ≫= (.!! k) = payload ≫= (.!! k).
Proof. simpl. done. Qed.




End audit_claims.

(** ** The KPI aggregation *)

Section analytics_claims.
Import Analytics.

Lemma foldl_Qcplus (a : Qc) (l : list Qc) :
  foldl Qcplus a l = a + foldr Qcplus 0 l.
Proof.
  revert a. induction l as [|x l IH]; intros a; simpl.
  - ring.
  - rewrite IH. ring.
Qed.






(** The guard of the conditional expression keeps the division defined. *)
Lemma collection_rate_of_defined total_paid total_revenue :
  collection_rate_of total_paid total_revenue
  = Some (if decide (0 < total_revenue)
          then total_paid / total_revenue * qc 100 1 else 0).
Proof.
  unfold collection_rate_of, py_div. case_decide as Hpos; [|done].
  rewrite decide_False; [done|].
  intros ->. by apply Qclt_not_eq in Hpos.
Qed.

(** The scenario of the specification: 100 paid and 200 unpaid give a
    revenue of 300, a rate of 33.3 and two customers. *)
Example kpis_of_bills_scenario :
  kpis_of_bills [Samples.bill_paid; Samples.bill_unpaid]
  = Ok200 (mkKPIs (qc 300 1) (qc 333 10) 2 (qc 115 100)
             (qc 52 10) (qc 18 10) (qc 21 10) 0).
Proof.
  unfold kpis_of_bills, bills_collection_rate.
  rewrite collection_rate_of_defined. by f_equal.
Qed.

(** C3 (counterexample).  With no bill the answer is not the zero
    snapshot: the aggregation gives the mock indicators, and the shipped
    endpoint, whose first line raises, the 500 answer. *)
Lemma kpis_of_bills_empty_not_zero :
  ¬ ∃ k, (kpis_of_bills [] = Ok200 k ∨
          get_kpis Base Samples.unbilled_db = Ok200 k ∨
          get_kpis QueryBase Samples.unbilled_db = Ok200 k) ∧
         total_revenue k = 0 ∧ collection_rate k = 0 ∧ customer_count k = 0%Z.
Proof.
  intros (k & [Hk|[Hk|Hk]] & _ & _ & Hcount); simpl in Hk;
    [|discriminate Hk|]; injection Hk as <-; discriminate Hcount.
Qed.

(** C3 (amended).  With no bill record the aggregation of [get_kpis]
    does not compute zeros: it answers with the mock snapshot of
    [get_mock_kpis], total revenue 2450000, collection rate 94.2 and
    customer count 12500.  (That is the answer of the endpoint when the
    [query] attribute exists; on the shipped base the endpoint answers
    500 before it reads any bill.) *)
Theorem get_kpis_without_bills (db : DB) :
  bills db = [] →
  kpis_of_bills (bills db) = Ok200 get_mock_kpis ∧
  get_kpis QueryBase db = Ok200 get_mock_kpis ∧
  get_kpis Base db = Error500 ∧
  total_revenue get_mock_kpis = qc 2450000 1 ∧
  collection_rate get_mock_kpis = qc 942 10 ∧
  customer_count get_mock_kpis = 12500%Z.
Proof.
  intros Hb. rewrite Hb. split; [done|]. split; [|done].
  unfold get_kpis. simpl. rewrite Hb. by destruct (List.find _ _).
Qed.

Lemma get_kpis_without_bills_witness :
  kpis_of_bills (bills Samples.unbilled_db) = Ok200 get_mock_kpis ∧
  get_kpis QueryBase Samples.unbilled_db = Ok200 get_mock_kpis ∧
  get_kpis Base Samples.unbilled_db = Error500.
Proof.
  destruct (get_kpis_without_bills Samples.unbilled_db eq_refl)
    as (H1 & H2 & H3 & _).
  exact (conj H1 (conj H2 H3)).
Defined.








End analytics_claims.

(** * Further properties of the code *)

(** Linear goals over [Qc] are sent to [Q], where [lra] decides them. *)
Ltac qc_to_q :=
  unfold Qcle, Qclt, Qcminus, Qcplus, Qcopp, Qcmult in *;
  cbn [this Q2Qc] in *;
  rewrite ?Qred_correct in *.
Ltac qc_lra := qc_to_q; lra.

(** ** More on [calculate_bill] *)

Section rate_more.
Import Rate.

Lemma py_min_mono a1 a2 b :
  a1 ≤ a2 →
  py_min a1 b ≤ py_min a2 b ∧ a1 - py_min a1 b ≤ a2 - py_min a2 b.
Proof.
  intros Ha. destruct b as [l|]; simpl.
  - repeat case_decide; split; qc_lra.
  - split; qc_lra.
Qed.

Lemma tier_loop_mono ts prev total1 total2 rem1 rem2 :
  0 ≤ prev → valid_tiers prev ts → total1 ≤ total2 → rem1 ≤ rem2 →
  tier_loop ts total1 rem1 ≤ tier_loop ts total2 rem2.
Proof.
  revert prev total1 total2 rem1 rem2.
  induction ts as [|t rest IH]; intros prev total1 total2 rem1 rem2
    Hprev Hv Htot Hrem; [done|].
  pose proof (tier_loop_ge (t :: rest) prev total2 rem2 Hprev Hv) as Hge.
  simpl in *. destruct Hv as [Hrate Hlim].
  destruct (decide (rem1 ≤ 0)) as [H1|H1].
  { by trans total2. }
  destruct (decide (rem2 ≤ 0)) as [H2|H2].
  { exfalso. qc_lra. }
  destruct (py_min_mono rem1 rem2 (tier_limit t) Hrem) as [Hq Hr].
  assert (total1 + py_min rem1 (tier_limit t) * tier_rate t
          ≤ total2 + py_min rem2 (tier_limit t) * tier_rate t) as Htot'.
  { apply Qcplus_le_compat; [done|]. by apply Qcmult_le_compat_r. }
  destruct (tier_limit t) as [b|] eqn:Hb.
  - destruct Hlim as [Hlt Hrest].
    apply IH with b; [qc_lra|done..].
  - by subst rest.
Qed.

(** From an unbounded tier on, nothing is left to bill. *)
Lemma tier_loop_after_unbounded ts1 t ts2 total remaining :
  tier_limit t = Infinity →
  tier_loop (ts1 ++ t :: ts2) total remaining
  = tier_loop (ts1 ++ [t]) total remaining.
Proof.
  intros Hinf. revert total remaining.
  induction ts1 as [|t1 ts1 IH]; intros total remaining; simpl.
  - case_decide; [done|]. rewrite Hinf. simpl.
    apply tier_loop_exhausted. qc_lra.
  - case_decide; [done|]. apply IH.
Qed.

(** X1.  On a valid structure a larger consumption never costs less. *)
Theorem calculate_bill_monotone s c1 c2 :
  valid_structure s → c1 ≤ c2 →
  calculate_bill (Some s) c1 ≤ calculate_bill (Some s) c2.
Proof.
  intros [_ Hts] Hc. unfold calculate_bill.
  by apply tier_loop_mono with 0.
Qed.

Lemma calculate_bill_monotone_witness :
  calculate_bill (Some optimized_structure) (qc 8000 1)
  ≤ calculate_bill (Some optimized_structure) (qc 20000 1).
Proof.
  apply calculate_bill_monotone.
  - apply (bool_decide_unpack _). vm_compute. exact I.
  - apply (bool_decide_unpack _). vm_compute. exact I.
Defined.

(** X2.  Tiers listed behind an unbounded tier are never charged: the
    bill is the one of the list cut after that tier. *)
Theorem calculate_bill_after_unbounded fixed ts1 t ts2 c :
  tier_limit t = Infinity →
  calculate_bill (Some (Structure fixed (Some (ts1 ++ t :: ts2)))) c
  = calculate_bill (Some (Structure fixed (Some (ts1 ++ [t])))) c.
Proof. intros Hinf. by apply tier_loop_after_unbounded. Qed.

Lemma calculate_bill_after_unbounded_witness :
  calculate_bill (Some misplaced_unbounded_structure) (qc 12 1)
  = calculate_bill
      (Some (Structure (Some (qc 5 1))
               (Some [Tier (Some Infinity) (Some (qc 1 1))]))) (qc 12 1).
Proof.
  exact (calculate_bill_after_unbounded (Some (qc 5 1)) []
           (Tier (Some Infinity) (Some (qc 1 1)))
           [Tier (Some (Finite (qc 4 1))) (Some (qc 2 1))] (qc 12 1) eq_refl).
Defined.

End rate_more.

(** ** More on the KPI aggregation *)

Section analytics_more.
Import Analytics.

Lemma py_sum_cons (x : Qc) (l : list Qc) : py_sum (x :: l) = x + py_sum l.
Proof. unfold py_sum. simpl. rewrite !foldl_Qcplus. ring. Qed.

Lemma sum_amounts_cons b bs :
  sum_amounts (b :: bs) = Bills.amount b + sum_amounts bs.
Proof. apply py_sum_cons. Qed.













(** X8.  [get_kpis] reads the bills of the first active data set only: a
    bill of any other data set changes nothing in the answer. *)
Theorem get_kpis_ignores_other_datasets
    (base : model_base) (db : DB) (b : Bills.Bill) (d : Datasets.Dataset) :
  List.find (λ d, bool_decide (Datasets.status d = Datasets.ACTIVE))
    (datasets db) = Some d →
  Bills.dataset_id b ≠ Datasets.id d →
  get_kpis base (mkDB (users db) (datasets db) (b :: bills db) (audit db))
  = get_kpis base db.
Proof.
  intros Hd Hb. unfold get_kpis. destruct base; simpl; [done|].
  rewrite Hd. by rewrite filter_cons_False.
Qed.

Lemma get_kpis_ignores_other_datasets_witness :
  get_kpis QueryBase
    (mkDB [] [Samples.baseline]
       [Bills.mkBill 9 "ACC-009" "2023-12" "industrial" None
          (qc 999 1) true 2;
        Samples.bill_paid; Samples.bill_unpaid] [])
  = get_kpis QueryBase
      (mkDB [] [Samples.baseline]
         [Samples.bill_paid; Samples.bill_unpaid] []).
Proof.
  apply (get_kpis_ignores_other_datasets QueryBase
           (mkDB [] [Samples.baseline]
              [Samples.bill_paid; Samples.bill_unpaid] [])
           _ Samples.baseline).
  - reflexivity.
  - discriminate.
Defined.

(** X9.  The paid total of the collection rate is the sum of the amounts
    weighted by [get_payment_rate]: a bill counts in full or not at all. *)
Theorem bills_collection_rate_payment_rate (bs : list Bills.Bill) :
  bills_collection_rate bs
  = collection_rate_of
      (py_sum ((λ b, Bills.amount b * BillModel.get_payment_rate b) <$> bs))
      (sum_amounts bs).
Proof.
  unfold bills_collection_rate. f_equal.
  induction bs as [|b bs IH]; [done|].
  rewrite fmap_cons, py_sum_cons, <-IH.
  unfold BillModel.get_payment_rate.
  destruct (Bills.paid_flag b) eqn:Hpaid.
  - rewrite filter_cons_True by done. rewrite sum_amounts_cons. ring.
  - rewrite filter_cons_False by (by rewrite Hpaid). ring.
Qed.

End analytics_more.

(** ** More on the audit trail *)

Section audit_more.
Import Audits.

#[local] Instance newer_first_is_total : Total newer_first.
Proof. intros a b. unfold newer_first. lia. Qed.

#[local] Instance newer_first_is_transitive : Transitive newer_first.
Proof. intros a b c. unfold newer_first. lia. Qed.

(** X10.  [log_action] only appends: the rows already in the table stay
    as they are, and when the identifiers increase along the table they
    still do after the call, so no two rows share an identifier. *)
Theorem log_action_keeps_ids_increasing
    table now action user_id resource_type resource_id description
    payload ip_address user_agent :
  StronglySorted lt (id <$> table) →
  let '(entry, table') :=
    log_action table now action user_id resource_type resource_id
      description payload ip_address user_agent in
  table' = table ++ [entry] ∧
  StronglySorted lt (id <$> table') ∧
  NoDup (id <$> table').
Proof.
  intros Hsorted. unfold log_action.
  set (entry := mkAudit _ _ _ _ _ _ _ _ _ _ _).
  assert (StronglySorted lt (id <$> table ++ [entry])) as Hs.
  { rewrite fmap_app.
    apply StronglySorted_app_2; [|done|by repeat constructor].
    intros i j Hi Hj. apply list_elem_of_fmap in Hi as (e & -> & He).
    apply list_elem_of_singleton in Hj as ->.
    by apply next_id_fresh. }
  split; [done|]. split; [done|].
  clear -Hs. induction Hs as [|x l _ IH Hall]; constructor; [|done].
  intros Hin. rewrite Forall_forall in Hall. specialize (Hall _ Hin). lia.
Qed.

Lemma log_action_keeps_ids_increasing_witness :
  StronglySorted lt (id <$> Samples.login_logout_audit) ∧
  NoDup (id <$> (log_action Samples.login_logout_audit 7000 "upload" None
                   None KeyNone None None None None).2).
Proof.
  assert (StronglySorted lt (id <$> Samples.login_logout_audit)) as Hs.
  { apply (bool_decide_unpack _). vm_compute. exact I. }
  split; [exact Hs|].
  exact (proj2 (proj2 (log_action_keeps_ids_increasing
    Samples.login_logout_audit 7000 "upload" None None KeyNone None None
    None None Hs))).
Defined.


Lemma pretty_N_go_nonempty (x : N) (s : string) :
  s ≠ EmptyString → pretty_N_go x s ≠ EmptyString.
Proof.
  revert s. induction (N.lt_wf_0 x) as [x _ IH]; intros s Hs.
  destruct (decide (x = 0)%N) as [->|Hx]; [by rewrite pretty_N_go_0|].
  rewrite pretty_N_go_step by lia. apply IH; [|done].
  apply N.div_lt; lia.
Qed.

Lemma pretty_Z_nonempty (z : Z) : pretty z ≠ EmptyString.
Proof.
  destruct z as [|p|p]; [done| |done].
  unfold pretty, pretty_Z, pretty, pretty_positive, pretty, pretty_N.
  rewrite decide_False by done.
  rewrite pretty_N_go_step by lia. by apply pretty_N_go_nonempty.
Qed.

(** X13.  The summary of a row logged with a non-empty resource type and
    a numeric resource id names the resource as [type:id], from which the
    id can be read back; the id 0 is falsy and leaves the row without a
    resource. *)
Theorem get_summary_resource
    (db : DB) table now action user_id (ty : string) (z1 z2 : Z) description
    payload ip_address user_agent :
  ty ≠ EmptyString → z1 ≠ 0%Z →
  let logged z :=
    (log_action table now action user_id (Some ty) (KeyInt z) description
       payload ip_address user_agent).1 in
  AuditModel.resource (AuditModel.get_summary db (logged z1))
  = Some (ty +:+ ":" +:+ pretty z1) ∧
  AuditModel.resource (AuditModel.get_summary db (logged 0%Z)) = None ∧
  (AuditModel.resource (AuditModel.get_summary db (logged z1))
   = AuditModel.resource (AuditModel.get_summary db (logged z2)) → z1 = z2).
Proof.
  intros Hty Hz1 logged.
  assert (∀ z, z ≠ 0%Z →
    AuditModel.resource (AuditModel.get_summary db (logged z))
    = Some (ty +:+ ":" +:+ pretty z)) as Hres.
  { intros z Hz. unfold logged, log_action, AuditModel.get_summary. simpl.
    rewrite decide_False by done. simpl.
    rewrite !bool_decide_eq_false_2; [done|apply pretty_Z_nonempty|done]. }
  split; [by apply Hres|]. split; [done|].
  rewrite (Hres z1 Hz1). destruct (decide (z2 = 0%Z)) as [->|Hz2]; [done|].
  rewrite (Hres z2 Hz2). intros [= Heq].
  by apply (inj (String.app ty)), (inj (String.app ":")), (inj pretty) in Heq.
Qed.

Lemma get_summary_resource_witness :
  AuditModel.resource
    (AuditModel.get_summary Samples.audited_db
       (log_action [] 7000 "upload" None (Some "dataset") (KeyInt 42) None
          None None None).1)
  = Some "dataset:42".
Proof.
  refine (proj1 (get_summary_resource Samples.audited_db [] 7000 "upload"
                   None "dataset" 42 42 None None None None _ _));
    discriminate.
Defined.

End audit_more.

(** ** Activating a data set *)

Section datasets_more.
Import DatasetsApi.

Lemma find_fmap_stable {A} (p : A → bool) (h : A → A) (l : list A) :
  (∀ x, p (h x) = p x) → List.find p (h <$> l) = h <$> List.find p l.
Proof.
  intros Hp. induction l as [|x l IH]; [done|].
  simpl. rewrite Hp. by destruct (p x).
Qed.

Lemma activate_deactivate_all i ds :
  activate i (deactivate_all ds) = reactivate i <$> ds.
Proof.
  unfold activate, deactivate_all. rewrite <-list_fmap_compose.
  apply list_fmap_ext. intros _ d _. unfold reactivate. simpl.
  destruct d as [di dn dst]. simpl.
  repeat (case_bool_decide; simpl in * ); done.
Qed.

Lemma reactivate_status i d :
  Datasets.status (reactivate i d) = Datasets.ACTIVE ↔ Datasets.id d = i.
Proof.
  unfold reactivate. repeat case_bool_decide; simpl; naive_solver.
Qed.

Lemma reactivate_id i d : Datasets.id (reactivate i d) = Datasets.id d.
Proof. unfold reactivate. by repeat case_bool_decide. Qed.

Lemma reactivate_twice i d : reactivate i (reactivate i d) = reactivate i d.
Proof.
  unfold reactivate. destruct d as [di dn dst]. simpl.
  repeat (case_bool_decide; simpl in * ); done.
Qed.

(** X14.  When the model classes have the [query] attribute and
    [commit_dataset] finds the data set, it answers 200, the active data
    sets are then exactly the rows with that id, no other table changes,
    and [get_kpis] reports on the bills of that data set.  On the shipped
    declarative base it answers 500 and changes nothing. *)
Theorem commit_dataset_activates (db : DB) (i : nat) (d : Datasets.Dataset) :
  get_or_404 db i = Some d →
  commit_dataset Base db i = (Crash500, db) ∧
  let '(ans, db') := commit_dataset QueryBase db i in
  ans = Answer 200 (mkCommitBody "Dataset activated successfully" i) ∧
  (∀ d', d' ∈ datasets db' →
         (Datasets.status d' = Datasets.ACTIVE ↔ Datasets.id d' = i)) ∧
  Datasets.id <$> datasets db' = Datasets.id <$> datasets db ∧
  users db' = users db ∧ bills db' = bills db ∧ audit db' = audit db ∧
  Analytics.get_kpis QueryBase db'
  = Analytics.kpis_of_bills
      (filter (λ b, Bills.dataset_id b = i) (bills db)).
Proof.
  intros Hd. split; [done|]. unfold commit_dataset. simpl. rewrite Hd.
  rewrite activate_deactivate_all.
  apply find_some in Hd as [Hin Hid]. apply bool_decide_eq_true in Hid.
  split; [by rewrite Hid|]. split; [|split].
  - intros d' (d0 & -> & _)%list_elem_of_fmap.
    by rewrite reactivate_status, reactivate_id.
  - simpl. rewrite <-list_fmap_compose. apply list_fmap_ext.
    intros _ d0 _. apply reactivate_id.
  - split; [done|]. split; [done|]. split; [done|].
    unfold Analytics.get_kpis. simpl.
    destruct (List.find _ (reactivate i <$> datasets db)) as [d'|] eqn:Hfind.
    + apply find_some in Hfind as [Hin' Hact].
      apply bool_decide_eq_true in Hact.
      apply list_elem_of_In, list_elem_of_fmap in Hin' as (d0 & -> & _).
      apply reactivate_status in Hact. by rewrite reactivate_id, Hact.
    + exfalso.
      pose proof (find_none _ _ Hfind (reactivate i d)) as Hno.
      simpl in Hno. rewrite bool_decide_eq_false in Hno. apply Hno.
      * apply list_elem_of_In, list_elem_of_fmap. exists d.
        split; [done|]. by apply list_elem_of_In.
      * by apply reactivate_status.
Qed.

Lemma commit_dataset_activates_witness :
  commit_dataset Base Fixtures.two_datasets_db 2
  = (Crash500, Fixtures.two_datasets_db) ∧
  Analytics.get_kpis QueryBase
    (commit_dataset QueryBase Fixtures.two_datasets_db 2).2
  = Analytics.kpis_of_bills [Fixtures.bill_fy2025].
Proof.
  pose proof (commit_dataset_activates Fixtures.two_datasets_db 2
                Fixtures.fy2025 eq_refl) as [Hshipped H].
  split; [exact Hshipped|].
  destruct (commit_dataset QueryBase Fixtures.two_datasets_db 2)
    as [ans db'].
  exact (proj2 (proj2 (proj2 (proj2 (proj2 (proj2 H)))))).
Defined.

(** X15.  Activating the same data set twice leaves the database as the
    first activation left it. *)
Theorem commit_dataset_idempotent (base : model_base) (db : DB) (i : nat) :
  (commit_dataset base (commit_dataset base db i).2 i).2
  = (commit_dataset base db i).2.
Proof.
  destruct base; [done|].
  unfold commit_dataset at 2 3. simpl.
  destruct (get_or_404 db i) as [d|] eqn:Hd; simpl.
  - unfold commit_dataset, get_or_404. simpl.
    rewrite !activate_deactivate_all.
    rewrite (find_fmap_stable _ (reactivate i)).
    + unfold get_or_404 in Hd. rewrite Hd. simpl.
      unfold with_datasets. simpl. f_equal.
      rewrite <-list_fmap_compose. apply list_fmap_ext.
      intros _ d0 _. apply reactivate_twice.
    + intros d0. by rewrite reactivate_id.
  - unfold commit_dataset. simpl. by rewrite Hd.
Qed.

End datasets_more.

(** ** Accounts: listing and creating users, logging in *)

Section accounts_more.
Import Accounts.

Variable hashpw : string → string → string.
Variable checkpw : string → string → option bool.
Variable create_access_token : nat → string.
Variable create_refresh_token : nat → string.

Lemma py_not_false (o : option string) :
  py_not o = false → ∃ s, o = Some s ∧ s ≠ EmptyString.
Proof.
  destruct o as [s|]; [|done]. simpl. intros Hs%bool_decide_eq_false. eauto.
Qed.

Lemma next_user_id_fresh table u :
  u ∈ table → (Users.id u < next_user_id table)%nat.
Proof.
  intros Hu%(max_list_with_elem_le Users.id). unfold next_user_id. lia.
Qed.

(** What [create_user] does, case by case: it either leaves the database
    as it is, or commits the requested user and then answers 201 or,
    when the role cannot be read back, 500. *)
Lemma create_user_effect base db now salt uid data :
  let '(ans, db') := create_user hashpw base db now salt uid data in
  (db' = db ∧
   (ans = Crash500 ∧ base = DeclarativeBase ∨
    ∃ status error, ans = Refusal status error ∧ base = QueryBase ∧
      (status = 403%nat ∧ ¬ is_admin db uid ∨ status = 400%nat))) ∨
  (base = QueryBase ∧ is_admin db uid ∧
   ∃ email password,
     form_email data = Some email ∧ form_password data = Some password ∧
     Forall (λ u, Users.email u ≠ email) (users db) ∧
     db' = with_users db
             (users db ++ [requested_user hashpw db now salt data email password]) ∧
     (ans = Answer 201
              (Users.to_dict (requested_user hashpw db now salt data email password))
      ∧ Users.recognized (default Users.VIEWER (form_role data)) ∨
      ans = Crash500 ∧
      ¬ Users.recognized (default Users.VIEWER (form_role data)))).
Proof.
  unfold create_user, is_admin. destruct base; simpl.
  { left. auto. }
  destruct (user_query_get db uid) as [admin|] eqn:Hadmin; simpl.
  2:{ left. split; [done|]. right. eexists _, _. split; [done|].
      split; [done|]. left. split; [done|]. intros (u & [=] & _). }
  case_bool_decide as Hrole; simpl.
  { left. split; [done|]. right. eexists _, _. split; [done|].
    split; [done|]. left. split; [done|]. intros (u & [= <-] & Hu). done. }
  destruct (py_not (form_email data)) eqn:He; simpl.
  { left. split; [done|]. right. eexists _, _. eauto. }
  destruct (py_not (form_password data)) eqn:Hp; simpl.
  { left. split; [done|]. right. eexists _, _. eauto. }
  apply py_not_false in He as (email & He & Hene).
  apply py_not_false in Hp as (password & Hp & Hpne).
  rewrite He, Hp. simpl.
  destruct (List.find _ (users db)) as [existing|] eqn:Hfind; simpl.
  { left. split; [done|]. right. eexists _, _. eauto. }
  unfold set_password, requested_user. simpl.
  case_bool_decide as Hrec; simpl; right.
  - split; [done|]. split; [by exists admin|].
    exists email, password. split; [done|]. split; [done|]. split; [|auto].
    apply Forall_forall. intros u Hu%list_elem_of_In.
    pose proof (find_none _ _ Hfind u Hu) as Hne. simpl in Hne.
    by apply bool_decide_eq_false in Hne.
  - split; [done|]. split; [by exists admin|].
    exists email, password. split; [done|]. split; [done|]. split; [|auto].
    apply Forall_forall. intros u Hu%list_elem_of_In.
    pose proof (find_none _ _ Hfind u Hu) as Hne. simpl in Hne.
    by apply bool_decide_eq_false in Hne.
Qed.



(** X18.  [create_user] keeps e-mail addresses and identifiers unique: if
    no two users share one before the call, none do after it. *)
Theorem create_user_keeps_users_unique
    (base : model_base) (db : DB) now salt uid data :
  NoDup (Users.email <$> users db) → NoDup (Users.id <$> users db) →
  let db' := (create_user hashpw base db now salt uid data).2 in
  NoDup (Users.email <$> users db') ∧ NoDup (Users.id <$> users db').
Proof.
  intros Hemail Hid.
  pose proof (create_user_effect base db now salt uid data) as H.
  destruct (create_user hashpw base db now salt uid data) as [ans db'].
  simpl.
  destruct H as [[-> _]|(_ & _ & email & password & _ & _ & Hfresh & -> & _)];
    [done|].
  simpl. rewrite !fmap_app. simpl. split.
  - apply NoDup_app. split; [done|]. split; [|apply NoDup_singleton].
    intros e Hin Hnew. apply list_elem_of_singleton in Hnew as ->.
    apply list_elem_of_fmap in Hin as (u & Heq & Hu).
    rewrite Forall_forall in Hfresh. by apply (Hfresh u).
  - apply NoDup_app. split; [done|]. split; [|apply NoDup_singleton].
    intros i Hin Hnew. apply list_elem_of_singleton in Hnew as ->.
    apply list_elem_of_fmap in Hin as (u & Heq & Hu).
    apply next_user_id_fresh in Hu. lia.
Qed.

(** X19.  [login] answers 200 only on model classes with the [query]
    attribute, for an active user whose e-mail and password match, and
    then appends exactly one [login] row for that user, without payload,
    to the audit table.  Every other answer (400, 401 or 500) leaves the
    database, audit table included, as it was; on the shipped
    declarative base the answer is always a 400 or the 500. *)
Theorem login_outcomes (base : model_base) (db : DB) now (data : credentials)
    remote_addr user_agent :
  let '(ans, db') :=
    login checkpw create_access_token create_refresh_token base db now data
      remote_addr user_agent in
  match ans with
  | Answer status body =>
      status = 200%nat ∧ base = QueryBase ∧
      ∃ u password entry,
        u ∈ users db ∧ cred_email data = Some (Users.email u) ∧
        Users.is_active u = true ∧
        cred_password data = Some password ∧
        check_password checkpw u password = Some true ∧
        id (user body) = Users.id u ∧ role (user body) = Users.role u ∧
        audit db' = audit db ++ [entry] ∧
        Audits.action entry = LOGIN ∧
        Audits.user_id entry = Some (Users.id u) ∧
        Audits.payload_json entry = None ∧
        users db' = users db
  | Refusal status error =>
      db' = db ∧
      (status = 400 ∨ status = 401 ∧ base = QueryBase ∨ status = 500)%nat
  | Crash500 => False
  end.
Proof.
  unfold login.
  destruct (py_not (cred_email data)) eqn:He; simpl; [auto|].
  destruct (py_not (cred_password data)) eqn:Hp; simpl; [auto|].
  apply py_not_false in He as (email & He & _).
  apply py_not_false in Hp as (password & Hp & _).
  rewrite He, Hp. simpl.
  destruct base; simpl; [auto|].
  destruct (active_user_by_email db email) as [u|] eqn:Hu; [|auto].
  destruct (check_password checkpw u password) as [[]|] eqn:Hc; [|auto..].
  split; [done|]. split; [done|].
  apply find_some in Hu as [Hin Hmatch].
  apply andb_prop in Hmatch as [Hmail%bool_decide_eq_true Hact].
  exists u, password. eexists. simpl.
  split; [by apply list_elem_of_In|]. split; [by rewrite Hmail|].
  repeat (split; [done|]). done.
Qed.

End accounts_more.

Section accounts_witnesses.
Import Accounts.

Lemma create_user_keeps_users_unique_witness :
  let db' :=
    (create_user Fixtures.toy_hashpw QueryBase Fixtures.two_datasets_db 8000
       "$2b$" 1 Fixtures.new_analyst).2 in
  length (users db') = 3%nat ∧
  NoDup (Users.email <$> users db') ∧ NoDup (Users.id <$> users db').
Proof.
  split; [reflexivity|].
  apply create_user_keeps_users_unique.
  - apply (bool_decide_unpack _). vm_compute. exact I.
  - apply (bool_decide_unpack _). vm_compute. exact I.
Defined.

End accounts_witnesses.

(** ** Forecast summaries and assumption parameters *)

Section forecasts_more.
Import Forecasts.

Lemma get_results_summary_Some results s :
  get_results_summary (Some results) = Some s →
  results ≠ [] ∧
  s = mkResultsSummary (total_of revenue results) (total_of opex results)
        (total_of capex results)
        (match last results with
         | Some r => default 0 (ending_fund r)
         | None => 0
         end)
        (length results).
Proof. destruct results; [done|]. by intros [= <-]. Qed.

Lemma get_results_summary_nonempty results :
  results ≠ [] →
  get_results_summary (Some results)
  = Some (mkResultsSummary (total_of revenue results)
            (total_of opex results) (total_of capex results)
            (match last results with
             | Some r => default 0 (ending_fund r)
             | None => 0
             end)
            (length results)).
Proof. by destruct results. Qed.

(** X21.  The summary of two runs of results put one after the other
    counts the years of both and takes the ending fund balance of the
    second; a run without results has no summary, and a summary counts
    at least one year. *)
Theorem get_results_summary_app (r1 r2 : list year_result) s1 s2 :
  get_results_summary (Some r1) = Some s1 →
  get_results_summary (Some r2) = Some s2 →
  (∃ s, get_results_summary (Some (r1 ++ r2)) = Some s ∧
        years_forecasted s = (years_forecasted s1 + years_forecasted s2)%nat ∧
        ending_fund_balance s = ending_fund_balance s2) ∧
  get_results_summary (Some []) = None ∧
  (1 ≤ years_forecasted s1)%nat.
Proof.
  intros [Hne1 ->]%get_results_summary_Some [Hne2 ->]%get_results_summary_Some.
  split; [|split; [done|]].
  - rewrite get_results_summary_nonempty.
    + eexists. split; [reflexivity|]. simpl.
      rewrite length_app, last_app. split; [done|].
      destruct (last r2) as [r|] eqn:Hlast; [done|].
      apply last_None in Hlast. done.
    + intros [-> _]%app_eq_nil. done.
  - simpl. destruct r1; [done|]. simpl. lia.
Qed.

Lemma get_results_summary_app_witness :
  ∃ s, get_results_summary
         (Some ([Fixtures.year_2024] ++ [Fixtures.year_2025])) = Some s ∧
       years_forecasted s = 2%nat ∧
       ending_fund_balance s = qc 210000 1.
Proof.
  destruct (get_results_summary_app [Fixtures.year_2024]
              [Fixtures.year_2025] Fixtures.summary_2024
              Fixtures.summary_2025) as ((s & Hs & Hy & He) & _).
  - apply (f_equal Some). apply (f_equal5 mkResultsSummary);
      first [ reflexivity | apply Qc_is_canon; reflexivity ].
  - apply (f_equal Some). apply (f_equal5 mkResultsSummary);
      first [ reflexivity | apply Qc_is_canon; reflexivity ].
  - exists s. split; [exact Hs|]. split; [exact Hy|exact He].
Defined.

(** X22.  A parameter that [set_parameter] has stored is what
    [get_parameter] returns for its key, whatever the row held before
    (nothing at all included); the other keys read as before, and a
    second [set_parameter] on the key replaces the first.  Reading from a
    row whose parameters are [None] raises. *)
Theorem set_parameter_get_parameter
    (parameters_json : option (gmap string pyval)) (key : string)
    (value default_value : pyval) :
  get_parameter (set_parameter parameters_json key value) key default_value
  = Returned value ∧
  (∀ other, other ≠ key →
     get_parameter (set_parameter parameters_json key value) other
       default_value
     = Returned (default default_value (parameters_json ≫= (.!! other)))) ∧
  (∀ value',
     set_parameter (set_parameter parameters_json key value) key value'
     = set_parameter parameters_json key value') ∧
  get_parameter None key default_value = AttributeError.
Proof.
  unfold get_parameter, set_parameter. split; [|split; [|split]].
  - by rewrite lookup_insert_eq.
  - intros other Hne. rewrite lookup_insert_ne by done.
    destruct parameters_json as [m|]; simpl; [done|].
    by rewrite lookup_empty.
  - intros value'. simpl. by rewrite insert_insert_eq.
  - done.
Qed.

Lemma set_parameter_get_parameter_witness :
  get_parameter (set_parameter None "growth_rate" (PyFloat (qc 3 100)))
    "inflation" PyNone
  = Returned PyNone.
Proof.
  destruct (set_parameter_get_parameter None "growth_rate"
              (PyFloat (qc 3 100)) PyNone) as (_ & Hother & _).
  apply (Hother "inflation"). discriminate.
Defined.

End forecasts_more.

(** ** The role hierarchy *)

Section roles_more.
Import Users.

Lemma ordinal_cases r :
  r = VIEWER ∧ ordinal r = 1%nat ∨ r = ANALYST ∧ ordinal r = 2%nat ∨
  r = ADMIN ∧ ordinal r = 3%nat ∨ ¬ recognized r ∧ ordinal r = 0%nat.
Proof.
  destruct (decide (recognized r)) as [Hr|Hr].
  - unfold recognized in Hr. rewrite !elem_of_cons, elem_of_nil in Hr.
    destruct Hr as [->|[->|[->|[]]]]; auto.
  - right. right. right. split; [done|]. by apply ordinal_unrecognized.
Qed.

(** X23.  The roles form a hierarchy: a user has the permission of its
    own role; a permission includes every permission of lower or equal
    ordinal; an administrator has every permission; and the permission
    of the admin role is held by administrators only, so it is the test
    [role == ADMIN] of the admin-only endpoints. *)
Theorem has_permission_hierarchy (u : User) (r r' : string) :
  has_permission u (role u) = true ∧
  (has_permission u r = true → (ordinal r' ≤ ordinal r)%nat →
   has_permission u r' = true) ∧
  (role u = ADMIN → has_permission u r = true) ∧
  (has_permission u ADMIN = true ↔ role u = ADMIN).
Proof.
  unfold has_permission. split; [|split; [|split]].
  - by apply bool_decide_eq_true.
  - rewrite !bool_decide_eq_true. lia.
  - intros ->. apply bool_decide_eq_true.
    destruct (ordinal_cases r) as [[_ ->]|[[_ ->]|[[_ ->]|[_ ->]]]];
      vm_compute; lia.
  - rewrite bool_decide_eq_true. split.
    + intros Hle.
      destruct (ordinal_cases (role u))
        as [[_ Ho]|[[_ Ho]|[[Hr _]|[_ Ho]]]]; [..|done|];
        rewrite Ho in Hle; vm_compute in Hle; lia.
    + intros ->. done.
Qed.

Lemma has_permission_hierarchy_witness :
  has_permission Samples.admin_user ANALYST = true ∧
  has_permission Samples.admin_user VIEWER = true.
Proof.
  destruct (has_permission_hierarchy Samples.admin_user ANALYST VIEWER)
    as (_ & Hdown & Hadmin & _).
  assert (has_permission Samples.admin_user ANALYST = true) as Ha
    by (apply Hadmin; reflexivity).
  split; [exact Ha|]. apply Hdown; [exact Ha|].
  apply (bool_decide_unpack _). vm_compute. exact I.
Defined.

End roles_more.
